(** * Fractal tree generator: a shallow embedding of [fractal_tree.py]

    The development models [FractalTree.__init__], [FractalTree.draw_tree],
    [FractalTree.draw_structures] and the part of [main] that builds the
    application object.  Floating-point arithmetic, NumPy and Matplotlib are
    not re-implemented: they are the operations of a [Platform], and every
    theorem holds for all platforms. *)

From Stdlib Require Import ZArith List String QArith Lia Bool.
From Stdlib Require Import Reals Qreals Lra.
Import ListNotations.
Open Scope Z_scope.

(** ** The platform: Python floats, NumPy, Matplotlib colormaps *)

Class Platform : Type := {
  pyfloat : Type;                       (* Python float / numpy.float64 *)
  rgba : Type;                          (* what a colormap returns *)
  of_int : Z -> pyfloat;                (* an int meeting a float operand *)
  of_lit : Q -> pyfloat;                (* a float literal such as [0.5] *)
  fadd : pyfloat -> pyfloat -> pyfloat;
  fsub : pyfloat -> pyfloat -> pyfloat;
  fmul : pyfloat -> pyfloat -> pyfloat;
  fdiv : pyfloat -> pyfloat -> pyfloat; (* used with the divisor [2] only *)
  int_truediv : Z -> Z -> pyfloat;      (* [int / int], divisor not zero *)
  np_pi : pyfloat;
  np_cos : pyfloat -> pyfloat;
  np_sin : pyfloat -> pyfloat;
  np_deg2rad : pyfloat -> pyfloat;
  plt_get_cmap : string -> pyfloat -> rgba; (* the colormap of a name *)
  cmap_registered : string -> bool;     (* [plt.get_cmap] knows the name *)
  int_fits : Z -> bool;                 (* the int is within float range *)
  truediv_fits : Z -> Z -> bool         (* [int / int] is within float range *)
}.

(** ** Data *)

Section Model.

Context {P : Platform}.

(** The attributes [__init__] stores on the object. *)
Record FractalTree : Type := mkFractalTree {
  depth : Z;
  angle : pyfloat;
  factor : pyfloat;
  cmap_tree : string
}.

(** One call of [ax.plot([x, x2], [y, y2], color=..., linewidth=...)]. *)
Record Line : Type := mkLine {
  xdata : list pyfloat;
  ydata : list pyfloat;
  color : rgba;
  linewidth : pyfloat
}.

(** The locals of one activation of [draw_tree] that got past the guard. *)
Record Frame : Type := mkFrame {
  fr_x : pyfloat;
  fr_y : pyfloat;
  fr_length : pyfloat;
  fr_angle : pyfloat;
  fr_depth : Z
}.

(** The objects a call can touch: the tree [self], the lines drawn on [ax]
    in drawing order, and [calls], a history of the activations that drew.
    [calls] is a ghost: the program never reads it. *)
Record Store : Type := mkStore {
  self : FractalTree;
  ax : list Line;
  calls : list Frame
}.

(** ** A state and exception monad *)

Inductive exn : Type :=
| ZeroDivisionError
| RecursionError
| ValueError
| OverflowError.

Definition M (A : Type) : Type := Store -> (exn + A) * Store.

Definition ret {A : Type} (a : A) : M A := fun s => (inr a, s).

Definition raise {A : Type} (e : exn) : M A := fun s => (inl e, s).

Definition bind {A B : Type} (m : M A) (k : A -> M B) : M B :=
  fun s =>
    match m s with
    | (inr a, s') => k a s'
    | (inl e, s') => (inl e, s')
    end.

Notation "x <- m ;; k" := (bind m (fun x => k))
  (at level 61, m at next level, right associativity).
Notation "m ;;; k" := (bind m (fun _ => k))
  (at level 61, right associativity).

(** Reading an attribute of [self]. *)
Definition attr {A : Type} (f : FractalTree -> A) : M A :=
  fun s => (inr (f (self s)), s).

(** [ax.plot(xs, ys, color=c, linewidth=w)] appends one line. *)
Definition ax_plot (xs ys : list pyfloat) (c : rgba) (w : pyfloat) : M unit :=
  fun s => (inr tt, mkStore (self s) (ax s ++ [mkLine xs ys c w]) (calls s)).

(** [ax.clear()]. *)
Definition ax_clear : M unit :=
  fun s => (inr tt, mkStore (self s) [] (calls s)).

(** Ghost step: record the activation. *)
Definition enter (fr : Frame) : M unit :=
  fun s => (inr tt, mkStore (self s) (ax s) (calls s ++ [fr])).

(** [a / b] on ints: a zero divisor is looked for first, then the quotient
    has to be within float range. *)
Definition truediv (a b : Z) : M pyfloat :=
  if b =? 0 then raise ZeroDivisionError
  else if truediv_fits a b then ret (int_truediv a b)
  else raise OverflowError.

(** [plt.get_cmap(name)]: an unregistered name is a [ValueError]. *)
Definition get_cmap (name : string) : M (pyfloat -> rgba) :=
  if cmap_registered name then ret (plt_get_cmap name) else raise ValueError.

(** An int operand of a float operation is converted first; beyond float
    range that is an [OverflowError]. *)
Definition to_float (z : Z) : M pyfloat :=
  if int_fits z then ret (of_int z) else raise OverflowError.

(** ** The program *)

(** [FractalTree.__init__]; [seed] is a parameter and nothing else. *)
Definition FractalTree_init (depth0 : Z) (angle0 factor0 : pyfloat) (seed : Z)
  (cmap_tree0 : string) : FractalTree :=
  mkFractalTree depth0 (np_deg2rad angle0) factor0 cmap_tree0.

(** [FractalTree.draw_tree].  [fuel] is the number of nested activations of
    [draw_tree] the recursion limit still lets run; the frames the library
    calls of an activation take are not counted, so [fuel] grows with the
    interpreter's limit without being that number. *)
Fixpoint draw_tree (fuel : nat) (x y length : pyfloat)
  (angle0 : option pyfloat) (depth0 : option Z) : M unit :=
  match fuel with
  | O => raise RecursionError
  | S fuel' =>
    current_depth <- match depth0 with
                     | Some d => ret d
                     | None => attr depth
                     end ;;
    let current_angle := match angle0 with
                         | Some a => a
                         | None => fdiv np_pi (of_int 2)
                         end in
    if current_depth =? 0 then ret tt else
    max_depth <- attr depth ;;
    t <- truediv current_depth max_depth ;;
    name <- attr cmap_tree ;;
    cmap <- get_cmap name ;;
    let color0 := cmap t in
    level <- to_float current_depth ;;
    let linewidth0 := fadd (of_lit (5 # 10)) (fmul level (of_lit (3 # 10))) in
    let x2 := fadd x (fmul length (np_cos current_angle)) in
    let y2 := fadd y (fmul length (np_sin current_angle)) in
    enter (mkFrame x y length current_angle current_depth) ;;;
    ax_plot [x; x2] [y; y2] color0 linewidth0 ;;;
    f <- attr factor ;;
    let new_length := fmul length f in
    a1 <- attr angle ;;
    draw_tree fuel' x2 y2 new_length
      (Some (fadd current_angle a1)) (Some (current_depth - 1)) ;;;
    a2 <- attr angle ;;
    draw_tree fuel' x2 y2 new_length
      (Some (fsub current_angle a2)) (Some (current_depth - 1))
  end.

(** [FractalTree.draw_structures]: the calls that only style the axes
    (ticks, spines, face colour, aspect, title) leave the lines alone and are
    left out.  The defaults 0, 0 and 1 of [draw_tree] are ints that any float
    holds. *)
Definition draw_structures (fuel : nat) (step : Z) : M unit :=
  ax_clear ;;;
  draw_tree fuel (of_int 0) (of_int 0) (of_int 1) None None.

End Model.

Notation "x <- m ;; k" := (bind m (fun x => k))
  (at level 61, m at next level, right associativity).
Notation "m ;;; k" := (bind m (fun _ => k))
  (at level 61, right associativity).

(** ** What one activation draws, and the activations of a whole call *)

Section Trace.

Context {P : Platform}.

Definition end_x (fr : Frame) : pyfloat :=
  fadd (fr_x fr) (fmul (fr_length fr) (np_cos (fr_angle fr))).

Definition end_y (fr : Frame) : pyfloat :=
  fadd (fr_y fr) (fmul (fr_length fr) (np_sin (fr_angle fr))).

(** Lines 40-47 of the source, for the activation [fr] of the tree [T]. *)
Definition line_of (T : FractalTree) (fr : Frame) : Line :=
  mkLine [fr_x fr; end_x fr] [fr_y fr; end_y fr]
    (plt_get_cmap (cmap_tree T) (int_truediv (fr_depth fr) (depth T)))
    (fadd (of_lit (5 # 10)) (fmul (of_int (fr_depth fr)) (of_lit (3 # 10)))).

(** The two activations [fr] starts (lines 48-50). *)
Definition left_child (T : FractalTree) (fr : Frame) : Frame :=
  mkFrame (end_x fr) (end_y fr) (fmul (fr_length fr) (factor T))
    (fadd (fr_angle fr) (angle T)) (fr_depth fr - 1).

Definition right_child (T : FractalTree) (fr : Frame) : Frame :=
  mkFrame (end_x fr) (end_y fr) (fmul (fr_length fr) (factor T))
    (fsub (fr_angle fr) (angle T)) (fr_depth fr - 1).

(** The activations below and including [fr], [n] levels of them, in the
    order in which they run. *)
Fixpoint branches (T : FractalTree) (n : nat) (fr : Frame) : list Frame :=
  match n with
  | O => []
  | S n' => fr :: branches T n' (left_child T fr)
               ++ branches T n' (right_child T fr)
  end.

(** The activations along the leftmost path, [n] of them. *)
Fixpoint left_spine (T : FractalTree) (n : nat) (fr : Frame) : list Frame :=
  match n with
  | O => []
  | S n' => fr :: left_spine T n' (left_child T fr)
  end.

(** Running [draw_tree] with the arguments held by [fr]. *)
Definition call (fuel : nat) (fr : Frame) : M unit :=
  draw_tree fuel (fr_x fr) (fr_y fr) (fr_length fr)
    (Some (fr_angle fr)) (Some (fr_depth fr)).

(** The store after the activations [frs] of [T] have drawn. *)
Definition drawn (s : Store) (frs : list Frame) : Store :=
  mkStore (self s) (ax s ++ map (line_of (self s)) frs) (calls s ++ frs).

(** The default arguments of [draw_tree]. *)
Definition current_depth_of (depth0 : option Z) (s : Store) : Z :=
  match depth0 with Some d => d | None => depth (self s) end.

Definition current_angle_of (angle0 : option pyfloat) : pyfloat :=
  match angle0 with Some a => a | None => fdiv np_pi (of_int 2) end.

Definition frame_of (x y length : pyfloat) (angle0 : option pyfloat)
  (depth0 : option Z) (s : Store) : Frame :=
  mkFrame x y length (current_angle_of angle0) (current_depth_of depth0 s).

(** What an activation past the guard at level [k] needs to get to
    [ax.plot]: a divisor that is not zero, a quotient and a level within
    float range, a registered colormap. *)
Definition can_draw (T : FractalTree) (k : Z) : bool :=
  negb (depth T =? 0) && truediv_fits k (depth T)
  && cmap_registered (cmap_tree T) && int_fits k.

(** The exception it ends with otherwise, in the order of lines 40, 42
    and 44. *)
Definition draw_error (T : FractalTree) (k : Z) : exn :=
  if depth T =? 0 then ZeroDivisionError
  else if negb (truediv_fits k (depth T)) then OverflowError
  else if negb (cmap_registered (cmap_tree T)) then ValueError
  else OverflowError.

(** The levels from [lo] to [hi] and their fractions of [self.depth] are
    within float range. *)
Definition in_float_range (T : FractalTree) (lo hi : Z) : Prop :=
  forall k, lo <= k <= hi ->
    int_fits k = true /\ truediv_fits k (depth T) = true.

(** [m], started in [s], returns normally, keeps [self], and has drawn
    exactly the lines [new], in that order. *)
Definition emits (m : M unit) (s : Store) (new : list Line) : Prop :=
  exists s', m s = (inr tt, s') /\ self s' = self s /\ ax s' = ax s ++ new.

(** The two ends of a plotted line. *)
Definition start_point (l : Line) : option (pyfloat * pyfloat) :=
  match xdata l, ydata l with
  | [x; _], [y; _] => Some (x, y)
  | _, _ => None
  end.

Definition end_point (l : Line) : option (pyfloat * pyfloat) :=
  match xdata l, ydata l with
  | [_; x2], [_; y2] => Some (x2, y2)
  | _, _ => None
  end.

(** [ls] is a segment starting at [p] followed by two runs of segments, each
    of the same shape one level lower and starting where that segment ends:
    [n] levels in all. *)
Fixpoint continuous (n : nat) (p : pyfloat * pyfloat) (ls : list Line) : Prop :=
  match n with
  | O => ls = []
  | S n' => exists l L R q,
      ls = l :: L ++ R /\ start_point l = Some p /\ end_point l = Some q /\
      continuous n' q L /\ continuous n' q R
  end.

(** An activation at the last level that draws. *)
Definition is_leaf (fr : Frame) : bool := fr_depth fr =? 1.

(** Multiplying [n] times by the shrink factor. *)
Fixpoint shrink (f : pyfloat) (n : nat) (length : pyfloat) : pyfloat :=
  match n with
  | O => length
  | S n' => shrink f n' (fmul length f)
  end.

(** ** The command line and [main] *)

Inductive Mode : Type := plt | tk.

(** The namespace [parser.parse_args()] returns. *)
Record Args : Type := mkArgs {
  arg_mode : Mode;
  arg_depth : Z;
  arg_angle : pyfloat;
  arg_factor : pyfloat;
  arg_seed : Z;
  arg_cmap_tree : string;
  arg_save : option string
}.

Definition with_seed (args : Args) (seed : Z) : Args :=
  mkArgs (arg_mode args) (arg_depth args) (arg_angle args) (arg_factor args)
    seed (arg_cmap_tree args) (arg_save args).

(** The application object [main] builds; both classes inherit
    [FractalTree.__init__] unchanged. *)
Inductive App : Type :=
| TkinterApp (tree : FractalTree)
| MatplotlibApp (tree : FractalTree) (save_path : option string).

Definition main (args : Args) : App :=
  match arg_mode args with
  | tk =>
      TkinterApp
        (FractalTree_init (arg_depth args) (arg_angle args) (arg_factor args)
           (arg_seed args) (arg_cmap_tree args))
  | plt =>
      MatplotlibApp
        (FractalTree_init (arg_depth args) (arg_angle args) (arg_factor args)
           (arg_seed args) (arg_cmap_tree args))
        (arg_save args)
  end.

Definition app_tree (app : App) : FractalTree :=
  match app with
  | TkinterApp t => t
  | MatplotlibApp t _ => t
  end.

(** The draw either [run] starts with: [self.draw_structures(ax, step=0)] on
    fresh axes. *)
Definition first_draw (fuel : nat) (app : App) : (exn + unit) * Store :=
  draw_structures fuel 0 (mkStore (app_tree app) [] []).

End Trace.

(** ** A platform that computes nothing

    Floats are the expressions the program builds; a colour is the colormap
    name with the expression it is applied to.  Every other platform is an
    interpretation of this one, and it lets the model run inside Rocq. *)

Inductive term : Type :=
| Int (z : Z)
| Lit (q : Q)
| Add (a b : term)
| Sub (a b : term)
| Mul (a b : term)
| Div (a b : term)
| IntDiv (a b : Z)
| Pi
| Cos (a : term)
| Sin (a : term)
| Deg2rad (a : term).

Inductive colour : Type :=
| Cmap (name : string) (t : term).

(** Where binary64 ends: a magnitude from here on rounds to infinity. *)
Definition float_limit : Z := 2 ^ 1024 - 2 ^ 970.

(** The colormap names the symbolic platform knows. *)
Definition sym_registry : list string :=
  ["Greens"; "Blues"; "viridis"; "plasma"]%string.

#[export] Instance Symbolic : Platform := {|
  pyfloat := term;
  rgba := colour;
  of_int := Int;
  of_lit := Lit;
  fadd := Add;
  fsub := Sub;
  fmul := Mul;
  fdiv := Div;
  int_truediv := IntDiv;
  np_pi := Pi;
  np_cos := Cos;
  np_sin := Sin;
  np_deg2rad := Deg2rad;
  plt_get_cmap := Cmap;
  cmap_registered := fun name => existsb (String.eqb name) sym_registry;
  int_fits := fun z => Z.abs z <? float_limit;
  truediv_fits := fun a b => Z.abs a <? float_limit * Z.abs b
|}.

(** What an expression is worth in exact real arithmetic, with
    [deg2rad x = x * pi / 180].  Binary64 rounds every one of these
    operations, so this is the value the program approximates, not the one
    it computes. *)
Fixpoint real_of (t : term) : R :=
  match t with
  | Int z => IZR z
  | Lit q => Q2R q
  | Add a b => real_of a + real_of b
  | Sub a b => real_of a - real_of b
  | Mul a b => real_of a * real_of b
  | Div a b => real_of a / real_of b
  | IntDiv a b => IZR a / IZR b
  | Pi => PI
  | Cos a => cos (real_of a)
  | Sin a => sin (real_of a)
  | Deg2rad a => real_of a * (PI / 180)
  end%R.

(** Start, length and heading of an activation, and the end points of a
    line, in exact arithmetic. *)
Definition real_frame (fr : Frame (P := Symbolic)) : R * R * R * R :=
  (real_of (fr_x fr), real_of (fr_y fr), real_of (fr_length fr),
   real_of (fr_angle fr)).

Definition real_line (l : Line (P := Symbolic)) : list R * list R :=
  (map real_of (xdata l), map real_of (ydata l)).

(** The tree of the command line's defaults but for [depth], on empty
    axes. *)
Definition sample_tree (d : Z) : FractalTree (P := Symbolic) :=
  FractalTree_init d (Int 30) (Lit (7 # 10)) 0 "Greens".

Definition sample_store (d : Z) : Store (P := Symbolic) :=
  mkStore (sample_tree d) [] [].

(** ** The two shells: what their callbacks do to [self] *)

Section Shells.

Context {P : Platform}.

(** [int(v)] on a finite float, as the Depth slider gives it. *)
Variable py_int : pyfloat -> Z.

(** Attribute assignments [self.depth = d], [self.angle = a],
    [self.factor = f]. *)
Definition set_depth (d : Z) : M unit :=
  fun s =>
    (inr tt,
     mkStore (mkFractalTree d (angle (self s)) (factor (self s))
                (cmap_tree (self s))) (ax s) (calls s)).

Definition set_angle (a : pyfloat) : M unit :=
  fun s =>
    (inr tt,
     mkStore (mkFractalTree (depth (self s)) a (factor (self s))
                (cmap_tree (self s))) (ax s) (calls s)).

Definition set_factor (f : pyfloat) : M unit :=
  fun s =>
    (inr tt,
     mkStore (mkFractalTree (depth (self s)) (angle (self s)) f
                (cmap_tree (self s))) (ax s) (calls s)).

(** The [val] of the three Matplotlib sliders. *)
Record Sliders : Type := mkSliders {
  Depth_val : pyfloat;
  Angle_val : pyfloat;
  Factor_val : pyfloat
}.

(** [update(val)] in [MatplotlibApp.run]: it reads all three sliders and
    does not look at [val]. *)
Definition update (sliders : Sliders) (val : pyfloat) : M unit :=
  set_depth (py_int (Depth_val sliders)) ;;;
  set_angle (np_deg2rad (Angle_val sliders)) ;;;
  set_factor (Factor_val sliders).

(** A write to one of the three Tk variables, with what [params[key].get()]
    returns: an int for the [IntVar] of Depth, a float for the two
    [DoubleVar]s. *)
Inductive TkWrite : Type :=
| Depth_write (n : Z)
| Angle_write (v : pyfloat)
| Factor_write (v : pyfloat).

(** The trace callback of [TkinterApp.run],
    [setattr(self, key.lower(), float(params[key].get()))].  [float] leaves a
    float as it is.  For Depth it turns the int [n] into the float of the
    same value, which [draw_tree] compares, decrements, divides and
    multiplies as it does [n]; [depth] keeps it as [n]. *)
Definition tk_trace (w : TkWrite) : M unit :=
  match w with
  | Depth_write n => set_depth n
  | Angle_write v => set_angle v
  | Factor_write v => set_factor v
  end.

(** One tick of either animation: [self.draw_structures(ax, i)]. *)
Definition animate (fuel : nat) (i : Z) : M unit := draw_structures fuel i.

End Shells.

(** [int] on the symbolic platform: numerals are truncated towards zero;
    the other expressions have no value here and are sent to 0. *)
Definition sym_int (t : term) : Z :=
  match t with
  | Int z => z
  | Lit q => Z.quot (Qnum q) (Z.pos (Qden q))
  | _ => 0
  end.

(** The sliders at depth 3, 45 degrees, factor 0.6. *)
Definition sample_sliders : Sliders (P := Symbolic) :=
  mkSliders (Int 3) (Int 45) (Lit (6 # 10)).

(** Command lines: [--depth d --cmap-tree name], the rest at its default. *)
Definition sample_args (d : Z) (name : string) : Args (P := Symbolic) :=
  mkArgs plt d (Int 30) (Lit (7 # 10)) 0 name None.

(** An activation at level [k]. *)
Definition at_level {P : Platform} (k : Z) (fr : Frame) : bool :=
  fr_depth fr =? k.

(** * Facts about the model *)

Section Facts.

Context {P : Platform}.

Lemma drawn_nil (s : Store) : drawn s [] = s.
Proof.
  destruct s as [T l c]; unfold drawn; simpl.
  now rewrite !app_nil_r.
Qed.

Lemma drawn_app (s : Store) (f1 f2 : list Frame) :
  drawn (drawn s f1) f2 = drawn s (f1 ++ f2).
Proof.
  unfold drawn; simpl.
  now rewrite map_app, !app_assoc.
Qed.

(** Optional arguments only choose the frame. *)
Lemma draw_tree_defaults fuel x y length angle0 depth0 s :
  draw_tree fuel x y length angle0 depth0 s
  = call fuel (frame_of x y length angle0 depth0 s) s.
Proof.
  destruct fuel as [|fuel]; [reflexivity|].
  destruct angle0, depth0; reflexivity.
Qed.

(** The guard. *)
Lemma call_zero fuel fr s :
  fr_depth fr = 0 -> call (S fuel) fr s = (inr tt, s).
Proof.
  destruct fr as [x y l a d]; simpl; intros ->.
  reflexivity.
Qed.

Ltac run_step :=
  unfold call;
  cbn [draw_tree fr_x fr_y fr_length fr_angle fr_depth];
  cbv [bind ret attr truediv get_cmap to_float enter ax_plot raise].

Lemma can_draw_true T k :
  can_draw T k = true <->
  (depth T =? 0) = false /\ truediv_fits k (depth T) = true /\
  cmap_registered (cmap_tree T) = true /\ int_fits k = true.
Proof.
  unfold can_draw.
  rewrite !andb_true_iff, negb_true_iff.
  tauto.
Qed.

(** One activation past the guard, written out on the store.  The second
    recursive call reads [self.angle] again, after the first has returned;
    [new_length] was computed before it. *)
Lemma call_step_raw fuel fr s :
  fr_depth fr <> 0 -> can_draw (self s) (fr_depth fr) = true ->
  call (S fuel) fr s =
    match call fuel (left_child (self s) fr) (drawn s [fr]) with
    | (inr _, s') =>
        call fuel
          (mkFrame (end_x fr) (end_y fr) (fmul (fr_length fr) (factor (self s)))
             (fsub (fr_angle fr) (angle (self s'))) (fr_depth fr - 1)) s'
    | (inl e, s') => (inl e, s')
    end.
Proof.
  destruct fr as [x y l a d]; cbn [fr_depth]; intros Hd HT.
  apply Z.eqb_neq in Hd.
  apply can_draw_true in HT. destruct HT as (H0 & Hq & Hc & Hi).
  run_step.
  rewrite Hd, H0, Hq, Hc, Hi.
  reflexivity.
Qed.

(** An activation past the guard that cannot draw ends with its exception
    and has changed nothing. *)
Lemma call_fails fuel fr s :
  fr_depth fr <> 0 -> can_draw (self s) (fr_depth fr) = false ->
  call (S fuel) fr s = (inl (draw_error (self s) (fr_depth fr)), s).
Proof.
  destruct fr as [x y l a d]; cbn [fr_depth]; intros Hd HT.
  apply Z.eqb_neq in Hd.
  unfold can_draw in HT. unfold draw_error.
  run_step.
  rewrite Hd.
  destruct (depth (self s) =? 0); [reflexivity|].
  destruct (truediv_fits d (depth (self s))); [|reflexivity].
  destruct (cmap_registered (cmap_tree (self s))); [|reflexivity].
  destruct (int_fits d); [discriminate HT | reflexivity].
Qed.

(** Division by a zero [self.depth] past the guard. *)
Lemma call_div_zero fuel fr s :
  fr_depth fr <> 0 -> depth (self s) = 0 ->
  call (S fuel) fr s = (inl ZeroDivisionError, s).
Proof.
  intros Hd HT.
  rewrite call_fails; [ | exact Hd | unfold can_draw; now rewrite HT ].
  unfold draw_error. now rewrite HT.
Qed.

Lemma draw_error_not_zero_division T k :
  depth T <> 0 -> draw_error T k <> ZeroDivisionError.
Proof.
  intros HT. apply Z.eqb_neq in HT.
  unfold draw_error. rewrite HT.
  destruct (truediv_fits k (depth T)), (cmap_registered (cmap_tree T));
    discriminate.
Qed.

Lemma call_no_fuel fr s : call 0 fr s = (inl RecursionError, s).
Proof. reflexivity. Qed.

(** Whatever the outcome, a call only appends: the lines and the history
    grow together, [self] is kept, and neither the outcome nor what is
    appended depends on what was on [ax] before. *)
Lemma call_drawn fuel : forall fr T,
  exists r frs, forall s, self s = T -> call fuel fr s = (r, drawn s frs).
Proof.
  induction fuel as [|fuel IH]; intros fr T.
  - exists (inl RecursionError), []. intros s _.
    now rewrite call_no_fuel, drawn_nil.
  - destruct (Z.eq_dec (fr_depth fr) 0) as [Hd|Hd].
    { exists (inr tt), []. intros s _.
      now rewrite call_zero, drawn_nil. }
    destruct (can_draw T (fr_depth fr)) eqn:HT.
    2:{ exists (inl (draw_error T (fr_depth fr))), []. intros s <-.
        now rewrite call_fails, drawn_nil. }
    destruct (IH (left_child T fr) T) as (r1 & frs1 & H1).
    destruct (IH (mkFrame (end_x fr) (end_y fr) (fmul (fr_length fr) (factor T))
                    (fsub (fr_angle fr) (angle T)) (fr_depth fr - 1)) T)
      as (r2 & frs2 & H2).
    destruct r1 as [e|[]].
    + exists (inl e), (fr :: frs1). intros s <-.
      rewrite call_step_raw by assumption.
      rewrite H1 by reflexivity.
      now rewrite drawn_app.
    + exists r2, (fr :: frs1 ++ frs2). intros s <-.
      rewrite call_step_raw by assumption.
      rewrite H1 by reflexivity.
      rewrite H2 by reflexivity.
      now rewrite !drawn_app.
Qed.

Lemma call_self fuel fr s : self (snd (call fuel fr s)) = self s.
Proof.
  destruct (call_drawn fuel fr (self s)) as (r & frs & H).
  now rewrite H.
Qed.

(** The step again, now with both children taken from the same tree. *)
Lemma call_step fuel fr s :
  fr_depth fr <> 0 -> can_draw (self s) (fr_depth fr) = true ->
  call (S fuel) fr s =
    match call fuel (left_child (self s) fr) (drawn s [fr]) with
    | (inr _, s') => call fuel (right_child (self s) fr) s'
    | (inl e, s') => (inl e, s')
    end.
Proof.
  intros Hd HT.
  rewrite call_step_raw by assumption.
  pose proof (call_self fuel (left_child (self s) fr) (drawn s [fr])) as E.
  destruct (call fuel (left_child (self s) fr) (drawn s [fr])) as [[e|[]] s'];
    [reflexivity|].
  cbn [snd drawn self] in E.
  unfold right_child. now rewrite E.
Qed.

(** A depth [n >= 0] whose levels can all draw, and room for [n + 1] nested
    activations: the call returns, having run exactly the activations
    [branches]. *)
Lemma call_branches n : forall fuel fr s,
  fr_depth fr = Z.of_nat n -> (n < fuel)%nat ->
  (forall k, 1 <= k <= Z.of_nat n -> can_draw (self s) k = true) ->
  call fuel fr s = (inr tt, drawn s (branches (self s) n fr)).
Proof.
  induction n as [|n IH]; intros fuel fr s Hd Hf HT;
    (destruct fuel as [|fuel]; [lia|]).
  - now rewrite call_zero, drawn_nil.
  - rewrite call_step by (try apply HT; lia).
    rewrite (IH fuel (left_child (self s) fr));
      [ | cbn; lia | lia | intros k Hk; apply HT; lia ].
    rewrite (IH fuel (right_child (self s) fr));
      [ | cbn; lia | lia | intros k Hk; apply HT; lia ].
    rewrite !drawn_app.
    reflexivity.
Qed.

Lemma left_spine_length T n : forall fr, List.length (left_spine T n fr) = n.
Proof. induction n; intros fr; simpl; [reflexivity | now rewrite IHn]. Qed.

(** A negative depth never meets the guard: while its levels can draw, every
    activation draws and calls again until no nesting is left. *)
Lemma call_negative fuel : forall fr s,
  fr_depth fr < 0 ->
  (forall k, fr_depth fr - Z.of_nat fuel < k <= fr_depth fr ->
             can_draw (self s) k = true) ->
  call fuel fr s = (inl RecursionError, drawn s (left_spine (self s) fuel fr)).
Proof.
  induction fuel as [|fuel IH]; intros fr s Hd HT.
  - now rewrite call_no_fuel, drawn_nil.
  - rewrite call_step by (try apply HT; lia).
    rewrite (IH (left_child (self s) fr));
      [ | cbn; lia | cbn [self drawn fr_depth left_child];
                     intros k Hk; apply HT; lia ].
    now rewrite drawn_app.
Qed.

(** A negative depth never returns normally, whatever else happens. *)
Lemma call_negative_fails fuel : forall fr s,
  fr_depth fr < 0 -> exists e, fst (call fuel fr s) = inl e.
Proof.
  induction fuel as [|fuel IH]; intros fr s Hd.
  - exists RecursionError. reflexivity.
  - destruct (can_draw (self s) (fr_depth fr)) eqn:HT.
    + rewrite call_step_raw by (assumption || lia).
      destruct (IH (left_child (self s) fr) (drawn s [fr])) as (e & He);
        [cbn; lia|].
      destruct (call fuel (left_child (self s) fr) (drawn s [fr]))
        as [[e'|[]] s']; cbn in He; [|discriminate He].
      exists e'. reflexivity.
    + rewrite call_fails by (assumption || lia).
      eexists. reflexivity.
Qed.

(** With [self.depth] not zero the division never fails on its divisor. *)
Lemma call_divides fuel : forall fr s,
  depth (self s) <> 0 -> fst (call fuel fr s) <> inl ZeroDivisionError.
Proof.
  induction fuel as [|fuel IH]; intros fr s HT.
  - rewrite call_no_fuel. discriminate.
  - destruct (Z.eq_dec (fr_depth fr) 0) as [Hd|Hd].
    { rewrite call_zero by assumption. discriminate. }
    destruct (can_draw (self s) (fr_depth fr)) eqn:Hc.
    2:{ rewrite call_fails by assumption. cbn [fst].
        intros E. injection E as E.
        revert E. now apply draw_error_not_zero_division. }
    rewrite call_step by assumption.
    pose proof (IH (left_child (self s) fr) (drawn s [fr]) HT) as H1.
    pose proof (call_self fuel (left_child (self s) fr) (drawn s [fr])) as E.
    destruct (call fuel (left_child (self s) fr) (drawn s [fr]))
      as [[e|[]] s']; [exact H1|].
    cbn [snd drawn self] in E.
    apply IH. now rewrite E.
Qed.

(** A registered colormap, a depth that is not zero and levels within float
    range are what drawing needs. *)
Lemma in_range_can_draw T lo hi :
  cmap_registered (cmap_tree T) = true -> depth T <> 0 ->
  in_float_range T lo hi ->
  forall k, lo <= k <= hi -> can_draw T k = true.
Proof.
  intros Hc HT Hr k Hk.
  destruct (Hr k Hk) as [Hi Hq].
  apply can_draw_true. apply Z.eqb_neq in HT. auto.
Qed.

End Facts.

(** * Properties of the traversal *)

Section Traversal.

Context {P : Platform}.

Lemma branches_length T n : forall fr,
  Z.of_nat (List.length (branches T n fr)) = 2 ^ Z.of_nat n - 1.
Proof.
  induction n as [|n IH]; intros fr; [reflexivity|].
  cbn [branches List.length].
  rewrite length_app, !Nat2Z.inj_succ, Nat2Z.inj_add, !IH.
  rewrite Z.pow_succ_r by lia.
  lia.
Qed.

Lemma drawn_emits (m : M unit) s frs :
  m s = (inr tt, drawn s frs) -> emits m s (map (line_of (self s)) frs).
Proof.
  intros H. exists (drawn s frs). now rewrite H.
Qed.

(** A call at the public interface, where [depth] is left to its default,
    with a registered colormap and levels within float range: it returns
    and has run [branches]. *)
Lemma draw_tree_public fuel x y length angle0 s :
  0 <= depth (self s) -> (Z.to_nat (depth (self s)) < fuel)%nat ->
  cmap_registered (cmap_tree (self s)) = true ->
  in_float_range (self s) 1 (depth (self s)) ->
  draw_tree fuel x y length angle0 None s
  = (inr tt,
     drawn s (branches (self s) (Z.to_nat (depth (self s)))
                (frame_of x y length angle0 None s))).
Proof.
  intros H0 Hf Hc Hr.
  rewrite draw_tree_defaults.
  apply call_branches; [cbn; lia | assumption |].
  intros k Hk.
  apply (in_range_can_draw (self s) 1 (depth (self s))); try assumption; lia.
Qed.

Lemma continuous_branches T n : forall fr,
  continuous n (fr_x fr, fr_y fr) (map (line_of T) (branches T n fr)).
Proof.
  induction n as [|n IH]; intros fr; [reflexivity|].
  cbn [branches map continuous].
  exists (line_of T fr), (map (line_of T) (branches T n (left_child T fr))),
    (map (line_of T) (branches T n (right_child T fr))), (end_x fr, end_y fr).
  repeat split.
  - now rewrite map_app.
  - apply (IH (left_child T fr)).
  - apply (IH (right_child T fr)).
Qed.

(** The shape [continuous] fixes the number of segments, so the split into
    a segment and its two runs is the only one. *)
Lemma continuous_length n : forall p ls,
  continuous n p ls -> Z.of_nat (List.length ls) = 2 ^ Z.of_nat n - 1.
Proof.
  induction n as [|n IH]; intros p ls H.
  - cbn in H. now subst.
  - destruct H as (l & L & R & q & -> & _ & _ & HL & HR).
    cbn [List.length].
    rewrite length_app, !Nat2Z.inj_succ, Nat2Z.inj_add.
    rewrite (IH _ _ HL), (IH _ _ HR), Z.pow_succ_r by lia.
    lia.
Qed.

(** Every activation [k] levels below [fr] has a depth lower by [k] and a
    length shrunk [k] times. *)
Lemma branches_level T n : forall fr fr',
  In fr' (branches T n fr) ->
  exists k, (k < n)%nat /\ fr_depth fr' = fr_depth fr - Z.of_nat k /\
            fr_length fr' = shrink (factor T) k (fr_length fr).
Proof.
  induction n as [|n IH]; intros fr fr' H; [destruct H|].
  cbn [branches] in H.
  destruct H as [<- | H].
  { exists O. repeat split; [lia | cbn; lia]. }
  apply in_app_or in H.
  destruct H as [H|H]; apply IH in H; destruct H as (k & Hk & Hd & Hl);
    exists (S k); cbn [fr_depth fr_length left_child right_child] in *;
    (repeat split; [lia | lia | exact Hl]).
Qed.

Lemma line_of_branches (T : FractalTree) (frs : list Frame) :
  Forall2 (fun l fr => l = line_of T fr) (map (line_of T) frs) frs.
Proof.
  induction frs; constructor; auto.
Qed.

End Traversal.

Section Helpers.

Context {P : Platform}.

Lemma in_combine_map {A B : Type} (f : A -> B) (xs : list A) b a :
  In (b, a) (combine (map f xs) xs) -> b = f a.
Proof.
  induction xs as [|x xs IH]; cbn; [tauto|].
  intros [E|H]; [now inversion E | auto].
Qed.

(** A call [n + 1] levels deep has [2 ^ n] activations at depth 1. *)
Lemma leaves_count T n : forall fr,
  fr_depth fr = Z.of_nat (S n) ->
  List.length (filter is_leaf (branches T (S n) fr)) = Nat.pow 2 n.
Proof.
  induction n as [|n IH]; intros fr Hd.
  - cbn. unfold is_leaf. rewrite Hd. reflexivity.
  - remember (S n) as m eqn:Em.
    cbn [branches filter].
    replace (is_leaf fr) with false
      by (unfold is_leaf; symmetry; apply Z.eqb_neq; lia).
    rewrite filter_app, length_app.
    subst m.
    rewrite !IH by (cbn [fr_depth left_child right_child]; lia).
    cbn [Nat.pow]. lia.
Qed.

End Helpers.

(** * The claims *)

Section Claims.

Context {P : Platform}.

(** C1.  For a tree whose depth [d] is not negative, whose colormap is
    registered and whose levels are within float range, whatever the angle,
    the shrink factor and the starting pose, [draw_tree] returns normally as
    soon as [d + 1] nested activations are allowed, and it has drawn exactly
    [2 ^ d - 1] segments; for [d = 0] it has drawn none. *)
Theorem draw_tree_segment_count fuel x y length angle0 s :
  0 <= depth (self s) -> (Z.to_nat (depth (self s)) < fuel)%nat ->
  cmap_registered (cmap_tree (self s)) = true ->
  in_float_range (self s) 1 (depth (self s)) ->
  exists new,
    emits (draw_tree fuel x y length angle0 None) s new /\
    Z.of_nat (List.length new) = 2 ^ depth (self s) - 1 /\
    (depth (self s) = 0 -> new = []).
Proof.
  intros H0 Hf Hc Hr.
  eexists. split; [|split].
  - apply drawn_emits, draw_tree_public; assumption.
  - rewrite length_map, branches_length, Z2Nat.id; trivial.
  - intros ->. reflexivity.
Qed.

(** C2, as amended.  For a tree whose depth is negative the guard
    [current_depth == 0] is never met, and [draw_tree] never returns
    normally, whatever is allowed and whatever the colormap: it ends with an
    exception.  With a registered colormap and the levels it reaches within
    float range that exception is [RecursionError], and what it has drawn by
    then are the segments of the first activations along the leftmost path:
    not zero of them but, for any number [n], at least [n] once enough
    nested activations are allowed. *)
Theorem draw_tree_negative_depth x y length angle0 s :
  depth (self s) < 0 ->
  (forall fuel,
     exists e, fst (draw_tree fuel x y length angle0 None s) = inl e) /\
  (cmap_registered (cmap_tree (self s)) = true ->
   forall fuel,
     in_float_range (self s) (depth (self s) - Z.of_nat fuel)
       (depth (self s)) ->
     exists new,
       draw_tree fuel x y length angle0 None s
       = (inl RecursionError,
          mkStore (self s) (ax s ++ map (line_of (self s)) new)
            (calls s ++ new)) /\
       exists n,
         new = left_spine (self s) n (frame_of x y length angle0 None s)) /\
  (cmap_registered (cmap_tree (self s)) = true ->
   forall n : nat,
   exists enough : nat,
   forall fuel,
     (enough <= fuel)%nat ->
     in_float_range (self s) (depth (self s) - Z.of_nat fuel)
       (depth (self s)) ->
     exists new,
       draw_tree fuel x y length angle0 None s
       = (inl RecursionError,
          mkStore (self s) (ax s ++ map (line_of (self s)) new)
            (calls s ++ new)) /\
       (n <= List.length new)%nat).
Proof.
  intros Hd.
  assert (Hrun : cmap_registered (cmap_tree (self s)) = true ->
    forall fuel,
      in_float_range (self s) (depth (self s) - Z.of_nat fuel)
        (depth (self s)) ->
      draw_tree fuel x y length angle0 None s
      = (inl RecursionError,
         drawn s (left_spine (self s) fuel
                    (frame_of x y length angle0 None s)))).
  { intros Hc fuel Hr.
    rewrite draw_tree_defaults.
    apply call_negative; [exact Hd|].
    cbn [frame_of fr_depth current_depth_of].
    intros k Hk.
    apply (in_range_can_draw (self s) (depth (self s) - Z.of_nat fuel)
             (depth (self s))); [exact Hc | lia | exact Hr | lia]. }
  split; [|split].
  - intros fuel. rewrite draw_tree_defaults.
    apply call_negative_fails. exact Hd.
  - intros Hc fuel Hr.
    eexists. split; [apply (Hrun Hc fuel Hr)|].
    exists fuel. reflexivity.
  - intros Hc n. exists n. intros fuel Hn Hr.
    eexists. split; [apply (Hrun Hc fuel Hr)|].
    now rewrite left_spine_length.
Qed.

(** C3.  A call whose current depth is positive, on a tree with a registered
    colormap and levels within float range, draws its own segment first,
    then everything the call with heading [+ self.angle] draws, then
    everything the call with heading [- self.angle] draws; [L] and [R] are
    what those two calls draw from any store of the same tree. *)
Theorem draw_tree_preorder fuel x y length angle0 depth0 s :
  let T := self s in
  let d := current_depth_of depth0 s in
  let a := current_angle_of angle0 in
  let x2 := fadd x (fmul length (np_cos a)) in
  let y2 := fadd y (fmul length (np_sin a)) in
  let new_length := fmul length (factor T) in
  0 < d -> depth T <> 0 -> (Z.to_nat d <= fuel)%nat ->
  cmap_registered (cmap_tree T) = true -> in_float_range T 1 d ->
  exists L R,
    (forall s1, self s1 = T ->
       emits (draw_tree fuel x2 y2 new_length
                (Some (fadd a (angle T))) (Some (d - 1))) s1 L) /\
    (forall s1, self s1 = T ->
       emits (draw_tree fuel x2 y2 new_length
                (Some (fsub a (angle T))) (Some (d - 1))) s1 R) /\
    emits (draw_tree (S fuel) x y length angle0 depth0) s
      (line_of T (mkFrame x y length a d) :: L ++ R).
Proof.
  intros T d a x2 y2 new_length Hd HT Hf Hc Hr.
  assert (Hdraw : forall k, 1 <= k <= d -> can_draw T k = true)
    by (apply in_range_can_draw; assumption).
  set (fr := mkFrame x y length a d).
  set (n := Z.to_nat (d - 1)).
  assert (Hn : Z.of_nat n = d - 1) by (subst n; lia).
  exists (map (line_of T) (branches T n (left_child T fr))),
    (map (line_of T) (branches T n (right_child T fr))).
  split; [|split].
  - intros s1 <-. apply drawn_emits.
    apply (call_branches n fuel (left_child (self s1) fr) s1);
      [cbn; lia | lia | intros k Hk; apply Hdraw; lia].
  - intros s1 <-. apply drawn_emits.
    apply (call_branches n fuel (right_child (self s1) fr) s1);
      [cbn; lia | lia | intros k Hk; apply Hdraw; lia].
  - rewrite <- map_app.
    change (emits (draw_tree (S fuel) x y length angle0 depth0) s
              (map (line_of (self s)) (branches (self s) (S n) fr))).
    apply drawn_emits.
    rewrite draw_tree_defaults.
    apply call_branches; [cbn; lia | lia | intros k Hk; apply Hdraw; lia].
Qed.

(** C4.  The segments a tree of depth [d >= 0], with a registered colormap
    and levels within float range, draws from the root point
    [(x, y)] are [continuous]: the first starts at [(x, y)], and the two runs
    of segments that follow it (those of the two calls it makes, by C3) each
    begin where it ends, and so on down the [d] levels. *)
Theorem draw_tree_continuity fuel x y length angle0 s :
  0 <= depth (self s) -> (Z.to_nat (depth (self s)) < fuel)%nat ->
  cmap_registered (cmap_tree (self s)) = true ->
  in_float_range (self s) 1 (depth (self s)) ->
  exists new,
    emits (draw_tree fuel x y length angle0 None) s new /\
    continuous (Z.to_nat (depth (self s))) (x, y) new.
Proof.
  intros H0 Hf Hc Hr.
  eexists. split.
  - apply drawn_emits, draw_tree_public; assumption.
  - apply (continuous_branches (self s) _ (frame_of x y length angle0 None s)).
Qed.

(** C5.  A tree of depth [d >= 0], with a registered colormap and levels
    within float range, draws its [2 ^ d - 1] segments one per activation,
    each the line [line_of] gives for that activation, and
    the segment of an activation at level [current_depth] has line width
    [0.5 + current_depth * 0.3] and colour [cmap(current_depth / self.depth)],
    with the same [self.depth] and colormap for the whole traversal (the call
    leaves [self] as it was); so two segments drawn at the same level have
    the same colour and the same width. *)
Theorem draw_tree_style fuel x y length angle0 s :
  0 <= depth (self s) -> (Z.to_nat (depth (self s)) < fuel)%nat ->
  cmap_registered (cmap_tree (self s)) = true ->
  in_float_range (self s) 1 (depth (self s)) ->
  exists new frs,
    draw_tree fuel x y length angle0 None s
    = (inr tt, mkStore (self s) (ax s ++ new) (calls s ++ frs)) /\
    Z.of_nat (List.length new) = 2 ^ depth (self s) - 1 /\
    Forall2 (fun l fr => l = line_of (self s) fr) new frs /\
    Forall2 (fun l fr =>
               linewidth l
               = fadd (of_lit (5 # 10))
                   (fmul (of_int (fr_depth fr)) (of_lit (3 # 10))) /\
               color l
               = plt_get_cmap (cmap_tree (self s))
                   (int_truediv (fr_depth fr) (depth (self s))))
      new frs /\
    (forall l1 fr1 l2 fr2,
       In (l1, fr1) (combine new frs) -> In (l2, fr2) (combine new frs) ->
       fr_depth fr1 = fr_depth fr2 ->
       color l1 = color l2 /\ linewidth l1 = linewidth l2).
Proof.
  intros H0 Hf Hc Hr.
  set (frs := branches (self s) (Z.to_nat (depth (self s)))
                (frame_of x y length angle0 None s)).
  exists (map (line_of (self s)) frs), frs.
  split; [|split; [|split; [|split]]].
  - apply draw_tree_public; assumption.
  - unfold frs. rewrite length_map, branches_length, Z2Nat.id; trivial.
  - apply line_of_branches.
  - clear. induction frs; constructor; auto.
  - intros l1 fr1 l2 fr2 H1 H2 E.
    apply in_combine_map in H1, H2. subst l1 l2.
    cbn. now rewrite E.
Qed.

(** C7.  With a shrink factor of 0.7, a tree of depth 5 (registered
    colormap, levels within float range) and a starting length
    of 1, the traversal has 16 activations at the leaf level
    ([current_depth = 1]); each draws the segment [line_of] gives for its
    length, and that length is the starting length multiplied four times by
    the factor, [1 * 0.7 * 0.7 * 0.7 * 0.7]: the first segment has the
    starting length itself. *)
Theorem draw_tree_leaf_length fuel x y angle0 s :
  depth (self s) = 5 -> factor (self s) = of_lit (7 # 10) ->
  (5 < fuel)%nat ->
  cmap_registered (cmap_tree (self s)) = true ->
  in_float_range (self s) 1 5 ->
  exists new frs,
    draw_tree fuel x y (of_int 1) angle0 None s
    = (inr tt, mkStore (self s) (ax s ++ new) (calls s ++ frs)) /\
    Forall2 (fun l fr => l = line_of (self s) fr) new frs /\
    Forall (fun fr =>
              fr_depth fr = 1 ->
              fr_length fr
              = fmul (fmul (fmul (fmul (of_int 1) (of_lit (7 # 10)))
                              (of_lit (7 # 10))) (of_lit (7 # 10)))
                  (of_lit (7 # 10))) frs /\
    List.length (filter is_leaf frs) = 16%nat /\
    (exists fr rest, frs = fr :: rest /\ fr_length fr = of_int 1).
Proof.
  intros Hd Hfac Hf Hc Hr.
  set (fr0 := frame_of x y (of_int 1) angle0 None s).
  exists (map (line_of (self s)) (branches (self s) 5 fr0)),
    (branches (self s) 5 fr0).
  split; [|split; [|split; [|split]]].
  - rewrite draw_tree_public
      by (try assumption; rewrite Hd; (assumption || (simpl; lia))).
    rewrite Hd. reflexivity.
  - apply line_of_branches.
  - apply Forall_forall. intros fr Hin Hleaf.
    apply branches_level in Hin.
    destruct Hin as (k & Hk & Hdk & Hlk).
    cbn [fr0 frame_of fr_depth fr_length current_depth_of] in Hdk, Hlk.
    rewrite Hd in Hdk. rewrite Hfac in Hlk.
    assert (k = 4%nat) as -> by lia.
    exact Hlk.
  - apply (leaves_count (self s) 4 fr0). cbn. now rewrite Hd.
  - eexists _, _. split; reflexivity.
Qed.

(** C8.  The seed reaches [main] in the parsed arguments and is handed to
    the constructor, which drops it: changing only the seed changes neither
    the application object nor anything [draw_tree] or the first draw does
    with it. *)
Theorem seed_never_used (args : Args) (seed : Z) :
  arg_seed (with_seed args seed) = seed /\
  main (with_seed args seed) = main args /\
  (forall fuel x y length angle0 depth0 lines history,
     draw_tree fuel x y length angle0 depth0
       (mkStore (app_tree (main (with_seed args seed))) lines history)
     = draw_tree fuel x y length angle0 depth0
         (mkStore (app_tree (main args)) lines history)) /\
  (forall fuel,
     first_draw fuel (main (with_seed args seed)) = first_draw fuel (main args)).
Proof.
  assert (E : main (with_seed args seed) = main args)
    by (destruct args as [[] d a f sd c sv]; reflexivity).
  repeat split; trivial; intros; now rewrite E.
Qed.

(** C9.  Two calls of [draw_tree] with the same arguments on the same tree,
    whatever is already on the axes, have the same outcome [r] and draw the
    same sequence of segments, those of the activations [frs]; and a call
    leaves the tree as it found it. *)
Theorem draw_tree_deterministic fuel x y length angle0 depth0
  (T : FractalTree) (lines1 lines2 : list Line) (h1 h2 : list Frame) :
  exists r frs,
    draw_tree fuel x y length angle0 depth0 (mkStore T lines1 h1)
    = (r, mkStore T (lines1 ++ map (line_of T) frs) (h1 ++ frs)) /\
    draw_tree fuel x y length angle0 depth0 (mkStore T lines2 h2)
    = (r, mkStore T (lines2 ++ map (line_of T) frs) (h2 ++ frs)).
Proof.
  rewrite !draw_tree_defaults.
  destruct (call_drawn fuel (frame_of x y length angle0 depth0
                               (mkStore T lines1 h1)) T) as (r & frs & H).
  exists r, frs.
  split; [apply (H (mkStore T lines1 h1)) | apply (H (mkStore T lines2 h2))];
    reflexivity.
Qed.

(** C10.  At the public interface, where [depth] is left to its default and
    [self.depth >= 0], the division [current_depth / self.depth] never meets
    a zero divisor: the call never ends with [ZeroDivisionError], and when
    [self.depth] is 0 it returns at the guard with nothing changed. *)
Theorem draw_tree_no_zero_division fuel x y length angle0 s :
  0 <= depth (self s) ->
  fst (draw_tree fuel x y length angle0 None s) <> inl ZeroDivisionError /\
  (depth (self s) = 0 ->
   draw_tree (S fuel) x y length angle0 None s = (inr tt, s)).
Proof.
  intros H0. split.
  - rewrite draw_tree_defaults.
    destruct (Z.eq_dec (depth (self s)) 0) as [E|E].
    + destruct fuel as [|fuel]; [rewrite call_no_fuel; discriminate|].
      rewrite call_zero by exact E. discriminate.
    + apply call_divides, E.
  - intros E. rewrite draw_tree_defaults. apply call_zero, E.
Qed.

End Claims.

(** * The claims on the sample tree

    The theorems above, applied to the tree of the command line's defaults
    (angle 30, factor 0.7, colormap Greens) on the symbolic platform. *)

Section Samples.

Lemma sample_registered (d : Z) :
  cmap_registered (cmap_tree (sample_tree d)) = true.
Proof. reflexivity. Qed.

(** On the symbolic platform, levels up to [2 ^ 30] either way are within
    float range for any tree whose depth is not 0. *)
Lemma symbolic_in_float_range (T : FractalTree (P := Symbolic)) lo hi :
  depth T <> 0 -> - 2 ^ 30 <= lo -> hi <= 2 ^ 30 ->
  in_float_range T lo hi.
Proof.
  intros HT Hlo Hhi k Hk.
  assert (B : 2 ^ 30 < float_limit) by (vm_compute; reflexivity).
  assert (Hk' : Z.abs k < float_limit) by lia.
  split; apply Z.ltb_lt; [exact Hk'|].
  apply Z.lt_le_trans with (float_limit * 1); [lia|].
  apply Z.mul_le_mono_nonneg_l; lia.
Qed.

Lemma sample_in_float_range (d lo hi : Z) :
  d <> 0 -> - 2 ^ 30 <= lo -> hi <= 2 ^ 30 ->
  in_float_range (sample_tree d) lo hi.
Proof. intros Hd. now apply symbolic_in_float_range. Qed.

Lemma draw_tree_segment_count_witness :
  0 <= depth (self (sample_store 3)) /\
  (Z.to_nat (depth (self (sample_store 3))) < 4)%nat /\
  cmap_registered (cmap_tree (self (sample_store 3))) = true /\
  in_float_range (self (sample_store 3)) 1 (depth (self (sample_store 3))) /\
  exists new,
    emits (draw_tree (P := Symbolic) 4 (Int 0) (Int 0) (Int 1) None None)
      (sample_store 3) new /\
    Z.of_nat (List.length new) = 2 ^ depth (self (sample_store 3)) - 1 /\
    (depth (self (sample_store 3)) = 0 -> new = []).
Proof.
  assert (H0 : 0 <= depth (self (sample_store 3))) by (cbn; lia).
  assert (Hf : (Z.to_nat (depth (self (sample_store 3))) < 4)%nat)
    by (cbn; lia).
  assert (Hc : cmap_registered (cmap_tree (self (sample_store 3))) = true)
    by reflexivity.
  assert (Hr : in_float_range (self (sample_store 3)) 1
                 (depth (self (sample_store 3))))
    by (apply sample_in_float_range; cbn; lia).
  repeat (split; [assumption|]).
  exact (draw_tree_segment_count (P := Symbolic) 4 (Int 0) (Int 0) (Int 1)
           None (sample_store 3) H0 Hf Hc Hr).
Defined.

(** C2 as stated fails for depth [-1]: no number of allowed activations makes
    the call return normally, let alone with nothing drawn; with three of
    them it has drawn three segments when [RecursionError] ends it. *)
Lemma negative_depth_counterexample :
  ~ (exists fuel new,
       emits (draw_tree (P := Symbolic) fuel (Int 0) (Int 0) (Int 1) None None) (sample_store (-1)) new)
  /\ fst (draw_tree (P := Symbolic) 3 (Int 0) (Int 0) (Int 1) None None (sample_store (-1)))
     = inl RecursionError
  /\ List.length (ax (snd (draw_tree (P := Symbolic) 3 (Int 0) (Int 0) (Int 1) None None
                             (sample_store (-1))))) = 3%nat.
Proof.
  split; [|split; reflexivity].
  intros (fuel & new & s' & H & _).
  rewrite draw_tree_defaults in H.
  destruct (call_negative_fails fuel
              (frame_of (P := Symbolic) (Int 0) (Int 0) (Int 1) None None
                 (sample_store (-1)))
              (sample_store (-1))) as (e & He); [cbn; lia|].
  rewrite H in He. discriminate He.
Qed.

Lemma draw_tree_negative_depth_witness :
  depth (self (sample_store (-1))) < 0 /\
  (forall fuel,
     exists e,
       fst (draw_tree (P := Symbolic) fuel (Int 0) (Int 0) (Int 1) None None
              (sample_store (-1))) = inl e) /\
  (exists new,
     draw_tree (P := Symbolic) 3 (Int 0) (Int 0) (Int 1) None None
       (sample_store (-1))
     = (inl RecursionError,
        mkStore (sample_tree (-1)) ([] ++ map (line_of (sample_tree (-1))) new)
          ([] ++ new)) /\
     exists n,
       new = left_spine (sample_tree (-1)) n
               (frame_of (P := Symbolic) (Int 0) (Int 0) (Int 1) None None
                  (sample_store (-1)))).
Proof.
  assert (Hd : depth (self (sample_store (-1))) < 0) by (cbn; lia).
  split; [exact Hd|].
  destruct (draw_tree_negative_depth (P := Symbolic) (Int 0) (Int 0) (Int 1)
              None (sample_store (-1)) Hd) as (Hnever & Hspine & _).
  split; [exact Hnever|].
  apply (Hspine (sample_registered (-1)) 3%nat).
  apply sample_in_float_range; cbn; lia.
Defined.

Lemma draw_tree_preorder_witness :
  exists L R,
    (forall s1, self s1 = sample_tree 2 ->
       emits (draw_tree (P := Symbolic) 2 (Add (Int 0) (Mul (Int 1) (Cos (Div Pi (Int 2)))))
                (Add (Int 0) (Mul (Int 1) (Sin (Div Pi (Int 2)))))
                (Mul (Int 1) (Lit (7 # 10)))
                (Some (Add (Div Pi (Int 2)) (Deg2rad (Int 30))))
                (Some (2 - 1))) s1 L) /\
    (forall s1, self s1 = sample_tree 2 ->
       emits (draw_tree (P := Symbolic) 2 (Add (Int 0) (Mul (Int 1) (Cos (Div Pi (Int 2)))))
                (Add (Int 0) (Mul (Int 1) (Sin (Div Pi (Int 2)))))
                (Mul (Int 1) (Lit (7 # 10)))
                (Some (Sub (Div Pi (Int 2)) (Deg2rad (Int 30))))
                (Some (2 - 1))) s1 R) /\
    emits (draw_tree (P := Symbolic) 3 (Int 0) (Int 0) (Int 1) None None) (sample_store 2)
      (line_of (sample_tree 2) (mkFrame (P := Symbolic) (Int 0) (Int 0) (Int 1) (Div Pi (Int 2)) 2)
         :: L ++ R).
Proof.
  apply (draw_tree_preorder (P := Symbolic) 2 (Int 0) (Int 0) (Int 1) None None (sample_store 2));
    [ cbn; lia | cbn; discriminate | cbn; lia | reflexivity
    | apply sample_in_float_range; cbn; lia ].
Defined.

Lemma draw_tree_continuity_witness :
  0 <= depth (self (sample_store 2)) /\
  (Z.to_nat (depth (self (sample_store 2))) < 3)%nat /\
  cmap_registered (cmap_tree (self (sample_store 2))) = true /\
  in_float_range (self (sample_store 2)) 1 (depth (self (sample_store 2))) /\
  exists new,
    emits (draw_tree (P := Symbolic) 3 (Int 0) (Int 0) (Int 1) None None) (sample_store 2) new /\
    continuous (Z.to_nat (depth (self (sample_store 2)))) ((Int 0), (Int 0)) new.
Proof.
  assert (H0 : 0 <= depth (self (sample_store 2))) by (cbn; lia).
  assert (Hf : (Z.to_nat (depth (self (sample_store 2))) < 3)%nat)
    by (cbn; lia).
  assert (Hc : cmap_registered (cmap_tree (self (sample_store 2))) = true)
    by reflexivity.
  assert (Hr : in_float_range (self (sample_store 2)) 1
                 (depth (self (sample_store 2))))
    by (apply sample_in_float_range; cbn; lia).
  repeat (split; [assumption|]).
  exact (draw_tree_continuity (P := Symbolic) 3 (Int 0) (Int 0) (Int 1) None (sample_store 2) H0 Hf Hc Hr).
Defined.

Lemma draw_tree_style_witness :
  exists new frs,
    draw_tree (P := Symbolic) 3 (Int 0) (Int 0) (Int 1) None None (sample_store 2)
    = (inr tt, mkStore (sample_tree 2) ([] ++ new) ([] ++ frs)) /\
    Z.of_nat (List.length new) = 2 ^ 2 - 1 /\
    Forall2 (fun l fr => l = line_of (sample_tree 2) fr) new frs /\
    Forall2 (fun l fr =>
               linewidth l
               = Add (Lit (5 # 10)) (Mul (Int (fr_depth fr)) (Lit (3 # 10))) /\
               color l = Cmap "Greens" (IntDiv (fr_depth fr) 2))
      new frs /\
    (forall l1 fr1 l2 fr2,
       In (l1, fr1) (combine new frs) -> In (l2, fr2) (combine new frs) ->
       fr_depth fr1 = fr_depth fr2 ->
       color l1 = color l2 /\ linewidth l1 = linewidth l2).
Proof.
  apply (draw_tree_style (P := Symbolic) 3 (Int 0) (Int 0) (Int 1) None (sample_store 2));
    [ cbn; lia | cbn; lia | reflexivity
    | apply sample_in_float_range; cbn; lia ].
Defined.

Lemma draw_tree_leaf_length_witness :
  exists new frs,
    draw_tree (P := Symbolic) 6 (Int 0) (Int 0) (Int 1) None None (sample_store 5)
    = (inr tt, mkStore (sample_tree 5) ([] ++ new) ([] ++ frs)) /\
    Forall2 (fun l fr => l = line_of (sample_tree 5) fr) new frs /\
    Forall (fun fr =>
              fr_depth fr = 1 ->
              fr_length fr
              = Mul (Mul (Mul (Mul (Int 1) (Lit (7 # 10))) (Lit (7 # 10)))
                       (Lit (7 # 10))) (Lit (7 # 10))) frs /\
    List.length (filter is_leaf frs) = 16%nat /\
    (exists fr rest, frs = fr :: rest /\ fr_length fr = Int 1).
Proof.
  apply (draw_tree_leaf_length (P := Symbolic) 6 (Int 0) (Int 0) None (sample_store 5));
    [ reflexivity | reflexivity | lia | reflexivity
    | apply sample_in_float_range; cbn; lia ].
Defined.

Lemma draw_tree_no_zero_division_witness :
  0 <= depth (self (sample_store 0)) /\
  fst (draw_tree (P := Symbolic) 1 (Int 0) (Int 0) (Int 1) None None (sample_store 0))
  <> inl ZeroDivisionError /\
  (depth (self (sample_store 0)) = 0 ->
   draw_tree 2 (Int 0) (Int 0) (Int 1) None None (sample_store 0)
   = (inr tt, sample_store 0)).
Proof.
  assert (H0 : 0 <= depth (self (sample_store 0))) by (cbn; lia).
  split; [exact H0|].
  exact (draw_tree_no_zero_division (P := Symbolic) 1 (Int 0) (Int 0) (Int 1) None (sample_store 0) H0).
Defined.

End Samples.

(** * The two small scenarios, symbolically and in exact arithmetic *)

Section Scenarios.

(** Depth 1: the one line the program draws. *)
Example scenario_depth_1 :
  draw_tree (P := Symbolic) 2 (Int 0) (Int 0) (Int 1) None None (sample_store 1)
  = (inr tt,
     mkStore (sample_tree 1)
       [mkLine [Int 0; Add (Int 0) (Mul (Int 1) (Cos (Div Pi (Int 2))))]
               [Int 0; Add (Int 0) (Mul (Int 1) (Sin (Div Pi (Int 2))))]
               (Cmap "Greens" (IntDiv 1 1))
               (Add (Lit (5 # 10)) (Mul (Int 1) (Lit (3 # 10))))]
       [mkFrame (Int 0) (Int 0) (Int 1) (Div Pi (Int 2)) 1]).
Proof. reflexivity. Qed.

(** Depth 2: the three activations that draw. *)
Example scenario_depth_2 :
  calls (snd (draw_tree (P := Symbolic) 3 (Int 0) (Int 0) (Int 1) None None
                (sample_store 2)))
  = let x2 := Add (Int 0) (Mul (Int 1) (Cos (Div Pi (Int 2)))) in
    let y2 := Add (Int 0) (Mul (Int 1) (Sin (Div Pi (Int 2)))) in
    [mkFrame (Int 0) (Int 0) (Int 1) (Div Pi (Int 2)) 2;
     mkFrame x2 y2 (Mul (Int 1) (Lit (7 # 10)))
       (Add (Div Pi (Int 2)) (Deg2rad (Int 30))) 1;
     mkFrame x2 y2 (Mul (Int 1) (Lit (7 # 10)))
       (Sub (Div Pi (Int 2)) (Deg2rad (Int 30))) 1].
Proof. reflexivity. Qed.

Ltac componentwise :=
  repeat match goal with
         | |- (_ :: _) = (_ :: _) => apply f_equal2
         | |- (_, _) = (_, _) => apply f_equal2
         end;
  try reflexivity.

(** In exact arithmetic the depth 1 line runs from (0,0) to (0,1). *)
Lemma scenario_depth_1_exact :
  map real_line
    (ax (snd (draw_tree (P := Symbolic) 2 (Int 0) (Int 0) (Int 1) None None
                (sample_store 1))))
  = [([0; 0], [0; 1])]%R.
Proof.
  cbn. unfold real_line; cbn.
  rewrite cos_PI2, sin_PI2.
  componentwise; lra.
Qed.

(** In exact arithmetic the three branches of depth 2 are: length 1 heading
    90 degrees from (0,0); length 0.7 heading 120 degrees from (0,1); length
    0.7 heading 60 degrees from (0,1). *)
Lemma scenario_depth_2_exact :
  map real_frame
    (calls (snd (draw_tree (P := Symbolic) 3 (Int 0) (Int 0) (Int 1) None None
                   (sample_store 2))))
  = [(0, 0, 1, real_of (Deg2rad (Int 90)));
     (0, 1, 7 / 10, real_of (Deg2rad (Int 120)));
     (0, 1, 7 / 10, real_of (Deg2rad (Int 60)))]%R.
Proof.
  cbn. unfold real_frame; cbn. unfold Q2R; cbn.
  rewrite cos_PI2, sin_PI2.
  componentwise; lra.
Qed.

End Scenarios.

(** * More facts: redraws and levels *)

Section MoreFacts.

Context {P : Platform}.

(** [ax.clear()] and then the default call. *)
Lemma draw_structures_unfold fuel step s :
  draw_structures fuel step s
  = draw_tree fuel (of_int 0) (of_int 0) (of_int 1) None None
      (mkStore (self s) [] (calls s)).
Proof. reflexivity. Qed.

Lemma filter_none {A : Type} (f : A -> bool) (l : list A) :
  (forall a, In a l -> f a = false) -> filter f l = [].
Proof.
  induction l as [|a l IH]; intros H; [reflexivity|].
  cbn. rewrite (H a) by now left.
  apply IH. intros b Hb. apply H. now right.
Qed.

(** Level [m] of a call [n >= m] levels deep has [2 ^ (n - m)]
    activations. *)
Lemma level_count T n : forall fr m,
  fr_depth fr = Z.of_nat n -> (1 <= m <= n)%nat ->
  List.length (filter (at_level (Z.of_nat m)) (branches T n fr))
  = Nat.pow 2 (n - m).
Proof.
  induction n as [|n IH]; intros fr m Hd Hm; [lia|].
  cbn [branches filter].
  rewrite filter_app.
  destruct (Nat.eq_dec m (S n)) as [->|Hne].
  - replace (at_level (Z.of_nat (S n)) fr) with true
      by (unfold at_level; symmetry; apply Z.eqb_eq; exact Hd).
    rewrite !filter_none.
    + now rewrite Nat.sub_diag.
    + intros a Ha. apply branches_level in Ha.
      destruct Ha as (k & _ & Hk & _). cbn in Hk.
      unfold at_level. apply Z.eqb_neq. lia.
    + intros a Ha. apply branches_level in Ha.
      destruct Ha as (k & _ & Hk & _). cbn in Hk.
      unfold at_level. apply Z.eqb_neq. lia.
  - replace (at_level (Z.of_nat m) fr) with false
      by (unfold at_level; symmetry; apply Z.eqb_neq; lia).
    rewrite length_app.
    rewrite !IH by (cbn [fr_depth left_child right_child]; lia).
    replace (S n - m)%nat with (S (n - m)) by lia.
    cbn [Nat.pow]. lia.
Qed.

(** Both kinds of application hold the tree [__init__] builds. *)
Lemma app_tree_main (args : Args) :
  app_tree (main args)
  = FractalTree_init (arg_depth args) (arg_angle args) (arg_factor args)
      (arg_seed args) (arg_cmap_tree args).
Proof. unfold main. now destruct (arg_mode args). Qed.

(** An unregistered colormap: the first activation past the guard ends
    with [ValueError], before anything is drawn. *)
Lemma call_unregistered fuel fr s :
  fr_depth fr <> 0 -> depth (self s) <> 0 ->
  truediv_fits (fr_depth fr) (depth (self s)) = true ->
  cmap_registered (cmap_tree (self s)) = false ->
  call (S fuel) fr s = (inl ValueError, s).
Proof.
  intros Hd HT Hq Hc.
  rewrite call_fails;
    [ | exact Hd | unfold can_draw; rewrite Hc; apply andb_false_iff; left;
                   apply andb_false_r ].
  unfold draw_error. apply Z.eqb_neq in HT. now rewrite HT, Hq, Hc.
Qed.

End MoreFacts.

(** * Further properties of the code *)

Section Further.

Context {P : Platform}.

(** X1.  [draw_structures] redraws from scratch: for a depth [d >= 0], a
    registered colormap and levels within float range it returns, given
    enough nesting, with exactly the [2 ^ d - 1] lines of the tree on the
    axes, whatever was on them before and whatever [step] is. *)
Theorem draw_structures_redraws fuel step s :
  0 <= depth (self s) -> (Z.to_nat (depth (self s)) < fuel)%nat ->
  cmap_registered (cmap_tree (self s)) = true ->
  in_float_range (self s) 1 (depth (self s)) ->
  exists frs,
    draw_structures fuel step s
    = (inr tt,
       mkStore (self s) (map (line_of (self s)) frs) (calls s ++ frs)) /\
    frs = branches (self s) (Z.to_nat (depth (self s)))
            (mkFrame (of_int 0) (of_int 0) (of_int 1)
               (fdiv np_pi (of_int 2)) (depth (self s))) /\
    Z.of_nat (List.length frs) = 2 ^ depth (self s) - 1.
Proof.
  intros H0 Hf Hc Hr.
  eexists. split; [|split; [reflexivity|]].
  - rewrite draw_structures_unfold.
    rewrite draw_tree_public by assumption.
    reflexivity.
  - rewrite branches_length, Z2Nat.id; trivial.
Qed.

(** X2.  What a frame leaves on the axes, and how it ends, depends on the
    tree alone: not on the lines drawn before, not on the history, not on
    the frame number; and the tree is as it was. *)
Theorem draw_structures_picture fuel (T : FractalTree)
  (lines1 lines2 : list Line) (h1 h2 : list Frame) (step1 step2 : Z) :
  fst (draw_structures fuel step1 (mkStore T lines1 h1))
  = fst (draw_structures fuel step2 (mkStore T lines2 h2)) /\
  ax (snd (draw_structures fuel step1 (mkStore T lines1 h1)))
  = ax (snd (draw_structures fuel step2 (mkStore T lines2 h2))) /\
  self (snd (draw_structures fuel step1 (mkStore T lines1 h1))) = T.
Proof.
  rewrite !draw_structures_unfold, !draw_tree_defaults.
  cbn [self calls].
  destruct (call_drawn fuel
              (frame_of (of_int 0) (of_int 0) (of_int 1) None None
                 (mkStore T [] h1)) T) as (r & frs & H).
  rewrite (H (mkStore T [] h1)) by reflexivity.
  change (frame_of (of_int 0) (of_int 0) (of_int 1) None None
            (mkStore T [] h2))
    with (frame_of (of_int 0) (of_int 0) (of_int 1) None None
            (mkStore T [] h1)).
  rewrite (H (mkStore T [] h2)) by reflexivity.
  repeat split.
Qed.

(** X3.  [draw_tree] itself does not clear: where one call draws the tree,
    two calls in a row leave its segments on the axes twice, after what was
    there. *)
Theorem draw_tree_twice_accumulates fuel x y length angle0 s :
  0 <= depth (self s) -> (Z.to_nat (depth (self s)) < fuel)%nat ->
  cmap_registered (cmap_tree (self s)) = true ->
  in_float_range (self s) 1 (depth (self s)) ->
  exists new,
    emits (draw_tree fuel x y length angle0 None) s new /\
    emits (draw_tree fuel x y length angle0 None ;;;
           draw_tree fuel x y length angle0 None) s (new ++ new) /\
    Z.of_nat (List.length (new ++ new)) = 2 * (2 ^ depth (self s) - 1).
Proof.
  intros H0 Hf Hc Hr.
  set (frs := branches (self s) (Z.to_nat (depth (self s)))
                (frame_of x y length angle0 None s)).
  exists (map (line_of (self s)) frs).
  split; [|split].
  - apply drawn_emits, draw_tree_public; assumption.
  - rewrite <- map_app. apply drawn_emits.
    unfold bind.
    rewrite draw_tree_public by assumption.
    fold frs.
    rewrite draw_tree_public by assumption.
    now rewrite drawn_app.
  - rewrite length_app, Nat2Z.inj_add, length_map.
    unfold frs. rewrite branches_length, Z2Nat.id; lia.
Qed.

(** X4.  A tree of depth [d >= 0] (registered colormap, levels within float
    range) has [2 ^ (d - k)] activations, hence segments, at each level [k]
    from 1 to [d]: one at the root level, twice as many at each level
    below. *)
Theorem draw_tree_level_sizes fuel x y length angle0 s k :
  0 <= depth (self s) -> (Z.to_nat (depth (self s)) < fuel)%nat ->
  cmap_registered (cmap_tree (self s)) = true ->
  in_float_range (self s) 1 (depth (self s)) ->
  1 <= k <= depth (self s) ->
  exists frs,
    draw_tree fuel x y length angle0 None s
    = (inr tt,
       mkStore (self s) (ax s ++ map (line_of (self s)) frs) (calls s ++ frs)) /\
    Z.of_nat (List.length (filter (at_level k) frs))
    = 2 ^ (depth (self s) - k).
Proof.
  intros H0 Hf Hc Hr Hk.
  eexists. split; [apply draw_tree_public; assumption|].
  replace k with (Z.of_nat (Z.to_nat k)) at 1 by lia.
  rewrite level_count; [ | cbn; lia | lia ].
  rewrite Nat2Z.inj_pow, Nat2Z.inj_sub, !Z2Nat.id by lia.
  reflexivity.
Qed.

(** X5.  Each of the [2 ^ d - 1] activations of a tree of depth [d >= 0]
    (registered colormap, levels within float range) is at a level between 1
    and [d], so the colormap is only asked for fractions [level / d] with
    [0 < level <= d]; and its branch length is the starting length
    multiplied [d - level] times by the factor. *)
Theorem draw_tree_levels fuel x y length angle0 s :
  0 <= depth (self s) -> (Z.to_nat (depth (self s)) < fuel)%nat ->
  cmap_registered (cmap_tree (self s)) = true ->
  in_float_range (self s) 1 (depth (self s)) ->
  exists frs,
    draw_tree fuel x y length angle0 None s
    = (inr tt,
       mkStore (self s) (ax s ++ map (line_of (self s)) frs) (calls s ++ frs)) /\
    Z.of_nat (List.length frs) = 2 ^ depth (self s) - 1 /\
    Forall (fun fr =>
              1 <= fr_depth fr <= depth (self s) /\
              fr_length fr
              = shrink (factor (self s))
                  (Z.to_nat (depth (self s) - fr_depth fr)) length) frs.
Proof.
  intros H0 Hf Hc Hr.
  eexists. split; [apply draw_tree_public; assumption|]. split.
  { rewrite branches_length, Z2Nat.id; trivial. }
  apply Forall_forall. intros fr Hin.
  apply branches_level in Hin.
  destruct Hin as (j & Hj & Hd & Hl).
  cbn [frame_of fr_depth fr_length current_depth_of] in Hd, Hl.
  split; [lia|].
  rewrite Hl. f_equal. lia.
Qed.

(** X7.  With at least one activation allowed, [draw_tree] ends with
    [ZeroDivisionError] exactly when [self.depth] is 0 and the current depth
    is not, that is, only when a depth other than 0 is passed to a tree of
    depth 0; it has then drawn nothing. *)
Theorem draw_tree_zero_division fuel x y length angle0 depth0 s :
  (fst (draw_tree (S fuel) x y length angle0 depth0 s) = inl ZeroDivisionError
   <-> depth (self s) = 0 /\ current_depth_of depth0 s <> 0) /\
  (fst (draw_tree (S fuel) x y length angle0 depth0 s) = inl ZeroDivisionError
   -> snd (draw_tree (S fuel) x y length angle0 depth0 s) = s).
Proof.
  rewrite draw_tree_defaults.
  set (fr := frame_of x y length angle0 depth0 s).
  change (current_depth_of depth0 s) with (fr_depth fr).
  destruct (Z.eq_dec (depth (self s)) 0) as [HT|HT].
  - destruct (Z.eq_dec (fr_depth fr) 0) as [Hd|Hd].
    + rewrite call_zero by exact Hd. cbn.
      split; [split|]; [discriminate | tauto | discriminate].
    + rewrite call_div_zero by assumption. cbn. tauto.
  - pose proof (call_divides (S fuel) fr s HT) as H.
    split; [split|]; [tauto | tauto | tauto].
Qed.

(** X8.  A depth [k >= 0] passed as argument to a tree whose own depth is
    not 0 (registered colormap, levels 1 to [k] within float range) sets how
    deep the call goes, [2 ^ k - 1] segments at levels 1 to [k], but not how
    they are coloured: level [j] still gets [cmap(j / self.depth)]. *)
Theorem draw_tree_explicit_depth fuel x y length angle0 k s :
  0 <= k -> depth (self s) <> 0 -> (Z.to_nat k < fuel)%nat ->
  cmap_registered (cmap_tree (self s)) = true ->
  in_float_range (self s) 1 k ->
  exists new frs,
    draw_tree fuel x y length angle0 (Some k) s
    = (inr tt, mkStore (self s) (ax s ++ new) (calls s ++ frs)) /\
    Z.of_nat (List.length new) = 2 ^ k - 1 /\
    Forall2 (fun l fr =>
               color l
               = plt_get_cmap (cmap_tree (self s))
                   (int_truediv (fr_depth fr) (depth (self s))))
      new frs /\
    Forall (fun fr => 1 <= fr_depth fr <= k) frs.
Proof.
  intros Hk HT Hf Hc Hr.
  set (frs := branches (self s) (Z.to_nat k)
                (frame_of x y length angle0 (Some k) s)).
  exists (map (line_of (self s)) frs), frs.
  split; [|split; [|split]].
  - rewrite draw_tree_defaults.
    apply call_branches; [cbn; lia | exact Hf | ].
    intros j Hj.
    apply (in_range_can_draw (self s) 1 k); try assumption; lia.
  - unfold frs. rewrite length_map, branches_length, Z2Nat.id; trivial.
  - clear. induction frs; constructor; auto.
  - apply Forall_forall. intros fr Hin.
    apply branches_level in Hin.
    destruct Hin as (j & Hj & Hd & _).
    cbn [frame_of fr_depth current_depth_of] in Hd. lia.
Qed.

(** X9.  In the Matplotlib shell a slider event followed by a tick draws
    the tree of the sliders: depth [int] of the Depth slider, angle the Angle
    slider converted to radians, factor the Factor slider, and the colormap
    the tree had; when that colormap is registered and that depth is not
    negative and within float range, [2 ^ depth - 1] lines. *)
Theorem update_then_animate (py_int : pyfloat -> Z) sliders val fuel i s :
  let T := mkFractalTree (py_int (Depth_val sliders))
             (np_deg2rad (Angle_val sliders)) (Factor_val sliders)
             (cmap_tree (self s)) in
  0 <= py_int (Depth_val sliders) ->
  (Z.to_nat (py_int (Depth_val sliders)) < fuel)%nat ->
  cmap_registered (cmap_tree (self s)) = true ->
  in_float_range T 1 (py_int (Depth_val sliders)) ->
  exists frs,
    (update py_int sliders val ;;; animate fuel i) s
    = (inr tt, mkStore T (map (line_of T) frs) (calls s ++ frs)) /\
    frs = branches T (Z.to_nat (depth T))
            (mkFrame (of_int 0) (of_int 0) (of_int 1)
               (fdiv np_pi (of_int 2)) (depth T)) /\
    Z.of_nat (List.length frs) = 2 ^ py_int (Depth_val sliders) - 1.
Proof.
  intros T H0 Hf Hc Hr.
  eexists. split; [|split; [reflexivity|]].
  - change ((update py_int sliders val ;;; animate fuel i) s)
      with (draw_structures fuel i (mkStore T (ax s) (calls s))).
    rewrite draw_structures_unfold.
    rewrite draw_tree_public by assumption.
    reflexivity.
  - rewrite branches_length, Z2Nat.id; trivial.
Qed.

(** X10.  In the Tkinter shell a write [v] to the Angle variable becomes
    [self.angle] as it is, with no conversion to radians: at the next tick
    (depth at least 2, registered colormap, levels within float range) the
    first branch off the trunk has heading [pi/2 + v], and depth, factor
    and colormap are as before. *)
Theorem tk_angle_then_animate v fuel i s :
  2 <= depth (self s) -> (Z.to_nat (depth (self s)) < fuel)%nat ->
  cmap_registered (cmap_tree (self s)) = true ->
  in_float_range (self s) 1 (depth (self s)) ->
  let trunk := mkFrame (of_int 0) (of_int 0) (of_int 1)
                 (fdiv np_pi (of_int 2)) (depth (self s)) in
  exists s' rest,
    (tk_trace (Angle_write v) ;;; animate fuel i) s = (inr tt, s') /\
    self s'
    = mkFractalTree (depth (self s)) v (factor (self s)) (cmap_tree (self s)) /\
    calls s'
    = calls s ++
      trunk
      :: mkFrame (end_x trunk) (end_y trunk)
           (fmul (of_int 1) (factor (self s)))
           (fadd (fdiv np_pi (of_int 2)) v) (depth (self s) - 1)
      :: rest.
Proof.
  intros H2 Hf Hc Hr trunk.
  set (T := mkFractalTree (depth (self s)) v (factor (self s))
              (cmap_tree (self s))).
  change ((tk_trace (Angle_write v) ;;; animate fuel i) s)
    with (draw_structures fuel i (mkStore T (ax s) (calls s))).
  rewrite draw_structures_unfold.
  rewrite draw_tree_public
    by (unfold T; cbn; first [lia | assumption]).
  cbn [self depth T].
  destruct (Z.to_nat (depth (self s))) as [|[|n]] eqn:E; [lia | lia |].
  eexists _, _. split; [reflexivity|]. split; [reflexivity|].
  cbn [drawn calls branches app]. reflexivity.
Qed.

(** X11.  From the command line to the first frame, in both modes and
    whatever the seed.  With a registered [--cmap-tree], a [--depth] that is
    not negative and within float range, and enough nesting, it shows the
    [2 ^ depth - 1] lines of the tree [__init__] builds.  A negative
    [--depth] never gives a frame.  A [--cmap-tree] that is not registered,
    with a [--depth] other than 0, gives none either: the draw ends with
    [ValueError], or with [RecursionError] where nesting is short, and the
    axes are empty. *)
Theorem first_draw_from_command_line (args : Args) :
  let T := FractalTree_init (arg_depth args) (arg_angle args)
             (arg_factor args) (arg_seed args) (arg_cmap_tree args) in
  (0 <= arg_depth args ->
   cmap_registered (arg_cmap_tree args) = true ->
   in_float_range T 1 (arg_depth args) ->
   forall fuel, (Z.to_nat (arg_depth args) < fuel)%nat ->
   exists frs,
     first_draw fuel (main args)
     = (inr tt, mkStore T (map (line_of T) frs) frs) /\
     Z.of_nat (List.length frs) = 2 ^ arg_depth args - 1) /\
  (arg_depth args < 0 ->
   forall fuel, exists e, fst (first_draw fuel (main args)) = inl e) /\
  (arg_depth args <> 0 ->
   cmap_registered (arg_cmap_tree args) = false ->
   truediv_fits (arg_depth args) (arg_depth args) = true ->
   (forall fuel,
      (fst (first_draw fuel (main args)) = inl ValueError \/
       fst (first_draw fuel (main args)) = inl RecursionError) /\
      snd (first_draw fuel (main args)) = mkStore T [] []) /\
   (exists enough : nat,
    forall fuel, (enough <= fuel)%nat ->
      fst (first_draw fuel (main args)) = inl ValueError)).
Proof.
  intros T.
  assert (E : forall fuel,
    first_draw fuel (main args)
    = call fuel (frame_of (of_int 0) (of_int 0) (of_int 1) None None
                   (mkStore T [] [])) (mkStore T [] [])).
  { intros fuel. unfold first_draw.
    rewrite app_tree_main, draw_structures_unfold, draw_tree_defaults.
    reflexivity. }
  split; [|split].
  - intros H0 Hc Hr fuel Hf.
    eexists. split.
    + unfold first_draw.
      rewrite app_tree_main, draw_structures_unfold.
      cbn [self calls]. fold T.
      rewrite draw_tree_public by assumption.
      reflexivity.
    + cbn [calls app].
      rewrite branches_length, Z2Nat.id; trivial.
  - intros Hneg fuel. rewrite E.
    apply call_negative_fails. exact Hneg.
  - intros Hd Hc Hq.
    assert (V : forall fuel,
      first_draw (S fuel) (main args) = (inl ValueError, mkStore T [] [])).
    { intros fuel. rewrite E.
      apply call_unregistered; assumption. }
    split.
    + intros [|fuel].
      * rewrite E, call_no_fuel. split; [now right | reflexivity].
      * rewrite V. split; [now left | reflexivity].
    + exists 1%nat. intros [|fuel] Hf; [lia|]. now rewrite V.
Qed.

End Further.

(** * The further properties on the sample tree *)

Section FurtherSamples.

Lemma draw_structures_redraws_witness :
  exists frs,
    draw_structures (P := Symbolic) 4 7 (sample_store 3)
    = (inr tt,
       mkStore (sample_tree 3) (map (line_of (sample_tree 3)) frs)
         ([] ++ frs)) /\
    frs = branches (sample_tree 3) 3
            (mkFrame (P := Symbolic) (Int 0) (Int 0) (Int 1)
               (Div Pi (Int 2)) 3) /\
    Z.of_nat (List.length frs) = 2 ^ 3 - 1.
Proof.
  apply (draw_structures_redraws (P := Symbolic) 4 7 (sample_store 3));
    [ cbn; lia | cbn; lia | reflexivity
    | apply sample_in_float_range; cbn; lia ].
Defined.

Lemma draw_tree_twice_accumulates_witness :
  exists new,
    emits (draw_tree (P := Symbolic) 3 (Int 0) (Int 0) (Int 1) None None)
      (sample_store 2) new /\
    emits (draw_tree (P := Symbolic) 3 (Int 0) (Int 0) (Int 1) None None ;;;
           draw_tree (P := Symbolic) 3 (Int 0) (Int 0) (Int 1) None None)
      (sample_store 2) (new ++ new) /\
    Z.of_nat (List.length (new ++ new)) = 2 * (2 ^ 2 - 1).
Proof.
  apply (draw_tree_twice_accumulates (P := Symbolic) 3 (Int 0) (Int 0) (Int 1)
           None (sample_store 2));
    [ cbn; lia | cbn; lia | reflexivity
    | apply sample_in_float_range; cbn; lia ].
Defined.

Lemma draw_tree_level_sizes_witness :
  exists frs,
    draw_tree (P := Symbolic) 4 (Int 0) (Int 0) (Int 1) None None
      (sample_store 3)
    = (inr tt,
       mkStore (sample_tree 3) ([] ++ map (line_of (sample_tree 3)) frs)
         ([] ++ frs)) /\
    Z.of_nat (List.length (filter (at_level 2) frs)) = 2 ^ (3 - 2).
Proof.
  apply (draw_tree_level_sizes (P := Symbolic) 4 (Int 0) (Int 0) (Int 1)
           None (sample_store 3) 2);
    [ cbn; lia | cbn; lia | reflexivity
    | apply sample_in_float_range; cbn; lia | cbn; lia ].
Defined.

Lemma draw_tree_levels_witness :
  exists frs,
    draw_tree (P := Symbolic) 4 (Int 0) (Int 0) (Int 1) None None
      (sample_store 3)
    = (inr tt,
       mkStore (sample_tree 3) ([] ++ map (line_of (sample_tree 3)) frs)
         ([] ++ frs)) /\
    Z.of_nat (List.length frs) = 2 ^ 3 - 1 /\
    Forall (fun fr =>
              1 <= fr_depth fr <= 3 /\
              fr_length fr
              = shrink (Lit (7 # 10)) (Z.to_nat (3 - fr_depth fr)) (Int 1))
      frs.
Proof.
  apply (draw_tree_levels (P := Symbolic) 4 (Int 0) (Int 0) (Int 1) None
           (sample_store 3));
    [ cbn; lia | cbn; lia | reflexivity
    | apply sample_in_float_range; cbn; lia ].
Defined.

Lemma draw_tree_explicit_depth_witness :
  exists new frs,
    draw_tree (P := Symbolic) 3 (Int 0) (Int 0) (Int 1) None (Some 2)
      (sample_store 5)
    = (inr tt, mkStore (sample_tree 5) ([] ++ new) ([] ++ frs)) /\
    Z.of_nat (List.length new) = 2 ^ 2 - 1 /\
    Forall2 (fun l fr => color l = Cmap "Greens" (IntDiv (fr_depth fr) 5))
      new frs /\
    Forall (fun fr => 1 <= fr_depth fr <= 2) frs.
Proof.
  apply (draw_tree_explicit_depth (P := Symbolic) 3 (Int 0) (Int 0) (Int 1)
           None 2 (sample_store 5));
    [ lia | cbn; discriminate | cbn; lia | reflexivity
    | apply sample_in_float_range; cbn; lia ].
Defined.

Lemma update_then_animate_witness :
  exists frs,
    (update sym_int sample_sliders (Int 45) ;;; animate 4 0) (sample_store 8)
    = (inr tt,
       mkStore (mkFractalTree 3 (Deg2rad (Int 45)) (Lit (6 # 10)) "Greens")
         (map (line_of
                 (mkFractalTree 3 (Deg2rad (Int 45)) (Lit (6 # 10)) "Greens"))
            frs)
         ([] ++ frs)) /\
    frs = branches
            (mkFractalTree 3 (Deg2rad (Int 45)) (Lit (6 # 10)) "Greens") 3
            (mkFrame (Int 0) (Int 0) (Int 1) (Div Pi (Int 2)) 3) /\
    Z.of_nat (List.length frs) = 2 ^ 3 - 1.
Proof.
  apply (update_then_animate (P := Symbolic) sym_int sample_sliders (Int 45)
           4 0 (sample_store 8));
    [ cbn; lia | cbn; lia | reflexivity
    | apply symbolic_in_float_range; cbn; lia ].
Defined.

Lemma tk_angle_then_animate_witness :
  exists s' rest,
    (tk_trace (P := Symbolic) (Angle_write (Int 45)) ;;; animate 3 0)
      (sample_store 2) = (inr tt, s') /\
    self s' = mkFractalTree 2 (Int 45) (Lit (7 # 10)) "Greens" /\
    calls s'
    = [] ++
      mkFrame (Int 0) (Int 0) (Int 1) (Div Pi (Int 2)) 2
      :: mkFrame (Add (Int 0) (Mul (Int 1) (Cos (Div Pi (Int 2)))))
           (Add (Int 0) (Mul (Int 1) (Sin (Div Pi (Int 2)))))
           (Mul (Int 1) (Lit (7 # 10)))
           (Add (Div Pi (Int 2)) (Int 45)) (2 - 1)
      :: rest.
Proof.
  apply (tk_angle_then_animate (P := Symbolic) (Int 45) 3 0 (sample_store 2));
    [ cbn; lia | cbn; lia | reflexivity
    | apply sample_in_float_range; cbn; lia ].
Defined.

Lemma first_draw_from_command_line_witness :
  (exists frs,
     first_draw 4 (main (sample_args 3 "Greens"))
     = (inr tt,
        mkStore (sample_tree 3) (map (line_of (sample_tree 3)) frs) frs) /\
     Z.of_nat (List.length frs) = 2 ^ 3 - 1) /\
  (exists e, fst (first_draw 10 (main (sample_args (-2) "Greens"))) = inl e) /\
  (exists enough : nat,
   forall fuel, (enough <= fuel)%nat ->
     fst (first_draw fuel (main (sample_args 2 "NoSuchMap")))
     = inl ValueError).
Proof.
  split; [|split].
  - apply (proj1 (first_draw_from_command_line (sample_args 3 "Greens")));
      [ cbn; lia | reflexivity | apply sample_in_float_range; cbn; lia
      | cbn; lia ].
  - apply (proj1 (proj2 (first_draw_from_command_line
                           (sample_args (-2) "Greens")))).
    cbn; lia.
  - apply (proj2 (proj2 (first_draw_from_command_line
                           (sample_args 2 "NoSuchMap"))));
      [ cbn; lia | reflexivity | reflexivity ].
Defined.

End FurtherSamples.
